(** * bokeh.command.subcommands.png: the [bokeh png] subcommand

    A shallow embedding of [PNG.invoke], [PNG.write_file] and
    [PNG.file_contents] (src/bokeh/command/subcommands/png.py), and the
    properties of the export step, the size override and the output step.

    Python objects live in a store and are named by references, so that the
    assignment to [plot.plot_height] is seen by everybody who holds the
    document.  What the subcommand calls but does not define (the webdriver,
    the screenshot routine, the image codec, the inherited methods of
    [FileOutputSubcommand]) is a parameter of the development. *)

From Stdlib Require Import ZArith Ascii.
From Stdlib.Strings Require Import Byte.
From stdpp Require Import gmap strings list.

Local Open Scope string_scope.
Local Open Scope Z_scope.
Local Open Scope list_scope.

(** ** Python values *)

Definition bytes : Type := list Byte.byte.

(** Exceptions, by class. [External] stands for whatever a collaborator
    raises. *)
Inductive Exn : Type :=
| AttributeError (attr : string)
| FileNotFoundError (filename : string)
| FileExistsError (filename : string)
| UnsupportedOperation (op : string)
| External (origin : string).

Inductive Result (A : Type) : Type :=
| Ok (a : A)
| Raise (e : Exn).
Arguments Ok {A} a.
Arguments Raise {A} e.

(** The namespace built by argparse: [--width] and [--height] are [int] or
    [None]; [files] is the positional argument. *)
Record Args : Type := mkArgs {
  files : list string;
  height : option Z;
  width : option Z
}.

Definition is_not_None {A : Type} (o : option A) : bool :=
  match o with
  | Some _ => true
  | None => false
  end.

(** [a or b] for [a] an [int] or [None]: [None] and [0] are the falsy
    values. *)
Definition py_or (a : option Z) (b : Z) : Z :=
  match a with
  | Some z => if Z.eqb z 0 then b else z
  | None => b
  end.

(** ** Byte streams: [io.BytesIO] and binary files *)

Record ByteStream : Type := mkStream {
  data : bytes;
  pos : nat
}.

Definition BytesIO : ByteStream := {| data := []; pos := 0 |}.

(** [s.write(b)]: overwrite from the position on, extending the stream; a
    position past the end is reached by padding with zero bytes. *)
Definition stream_write (b : bytes) (s : ByteStream) : ByteStream :=
  let padded := data s ++ replicate (pos s - length (data s))%nat Byte.x00 in
  {| data := take (pos s) padded ++ b ++ drop (pos s + length b)%nat (data s);
     pos := (pos s + length b)%nat |}.

Definition stream_seek (n : nat) (s : ByteStream) : ByteStream :=
  {| data := data s; pos := n |}.

(** [s.read()]: everything from the position to the end. *)
Definition stream_read (s : ByteStream) : bytes * ByteStream :=
  (drop (pos s) (data s),
   {| data := data s; pos := Nat.max (pos s) (length (data s)) |}).

(** ** The store of models and documents *)

Definition ObjRef : Type := nat.
Definition DocRef : Type := nat.
Definition Driver : Type := nat.

(** A model is an instance of [Plot] (or of a subclass), with its
    [plot_width] and [plot_height], or of another class. *)
Inductive Model : Type :=
| Plot (plot_width plot_height : Z)
| Other (cls : string) (width height : Z).

Record Heap : Type := mkHeap {
  roots_of : DocRef -> list ObjRef;
  model_of : ObjRef -> Model
}.

Definition store (r : ObjRef) (m : Model) (h : Heap) : Heap :=
  {| roots_of := roots_of h;
     model_of := fun r' => if Nat.eqb r' r then m else model_of h r' |}.

Definition isinstance_Plot (m : Model) : bool :=
  match m with
  | Plot _ _ => true
  | Other _ _ _ => false
  end.

(** ** Files *)

Inductive OpenMode : Type :=
| ModeRead
| ModeWrite
| ModeAppend
| ModeExclusive.

Fixpoint mode_has (c : Ascii.ascii) (mode : string) : bool :=
  match mode with
  | EmptyString => false
  | String c' rest => if Ascii.eqb c c' then true else mode_has c rest
  end.

(** The kind of access a (valid) mode string asks for. *)
Definition parse_mode (mode : string) : OpenMode :=
  if mode_has "w"%char mode then ModeWrite
  else if mode_has "a"%char mode then ModeAppend
  else if mode_has "x"%char mode then ModeExclusive
  else ModeRead.

(** A file object can be written to unless it was opened for reading
    without "+". *)
Definition writable (mode : string) : bool :=
  match parse_mode mode with
  | ModeRead => mode_has "+"%char mode
  | _ => true
  end.

(** [io.open(filename, mode)] on a file system that maps names to contents:
    the file system after the call and the stream of the new file object. *)
Definition io_open (fs : gmap string bytes) (filename mode : string)
  : Result (gmap string bytes * ByteStream) :=
  match parse_mode mode with
  | ModeWrite => Ok (<[filename := []]> fs, {| data := []; pos := 0 |})
  | ModeAppend =>
      let old := default [] (fs !! filename) in
      Ok (<[filename := old]> fs, {| data := old; pos := length old |})
  | ModeExclusive =>
      match fs !! filename with
      | Some _ => Raise (FileExistsError filename)
      | None => Ok (<[filename := []]> fs, {| data := []; pos := 0 |})
      end
  | ModeRead =>
      match fs !! filename with
      | Some old => Ok (fs, {| data := old; pos := 0 |})
      | None => Raise (FileNotFoundError filename)
      end
  end.

(** ** Observable calls *)

Inductive Event : Type :=
| EWarn (msg : string)
| ECreated (d : Driver)
| ETerminate (d : Driver)
| EScreenshot (doc : DocRef) (d : Driver) (roots : list Model)
| EOpen (filename mode : string)
| EWrite (filename : string) (b : bytes)
| EClose (filename : string)
| EStdout (b : bytes)
| EAfterWrite (args : Args) (filename : string) (doc : DocRef).

Definition is_warning (e : Event) : bool :=
  match e with
  | EWarn _ => true
  | _ => false
  end.

(** Events that touch an output destination. *)
Definition is_output (e : Event) : bool :=
  match e with
  | EOpen _ _ | EWrite _ _ | EClose _ | EStdout _ => true
  | _ => false
  end.

(** ** The collaborators from [bokeh.io.export], PIL and the operating system *)

Class Services : Type := {
  (** what the collaborators own: browser processes, temporary files, ... *)
  X : Type;
  (** the image object returned by the screenshot routine *)
  Image : Type;
  create_webdriver : X -> Result Driver * X;
  terminate_webdriver : Driver -> X -> Result unit * X;
  (** reads the document; does not assign to it *)
  get_screenshot_as_png : Heap -> DocRef -> Driver -> X -> Result Image * X;
  (** [image.save(fp, format)] on a stream *)
  image_save : Image -> string -> ByteStream -> Result ByteStream;
  (** the reason, if any, for which the system refuses to open a name *)
  open_error : string -> X -> option Exn
}.

Section Subcommand.

Context {S : Services}.

(** ** Program state and the monad of the subcommand *)

Record World : Type := mkWorld {
  self_driver : option Driver;  (* the attribute [self.driver], when set *)
  heap : Heap;
  fs : gmap string bytes;
  stdout : bytes;
  ext : X
}.

Definition set_self_driver (d : Driver) (w : World) : World :=
  {| self_driver := Some d; heap := heap w; fs := fs w;
     stdout := stdout w; ext := ext w |}.

Definition set_heap (h : Heap) (w : World) : World :=
  {| self_driver := self_driver w; heap := h; fs := fs w;
     stdout := stdout w; ext := ext w |}.

Definition set_fs (f : gmap string bytes) (w : World) : World :=
  {| self_driver := self_driver w; heap := heap w; fs := f;
     stdout := stdout w; ext := ext w |}.

Definition set_stdout (o : bytes) (w : World) : World :=
  {| self_driver := self_driver w; heap := heap w; fs := fs w;
     stdout := o; ext := ext w |}.

Definition set_ext (x : X) (w : World) : World :=
  {| self_driver := self_driver w; heap := heap w; fs := fs w;
     stdout := stdout w; ext := x |}.

(** A run ends in a value or an exception, in a new state, having made some
    calls. *)
Record Outcome (A : Type) : Type := mkOutcome {
  result : Result A;
  final : World;
  events : list Event
}.
Arguments mkOutcome {A} result final events.
Arguments result {A} o.
Arguments final {A} o.
Arguments events {A} o.

Definition M (A : Type) : Type := World -> Outcome A.

Definition ret {A : Type} (a : A) : M A :=
  fun w => mkOutcome (Ok a) w [].

Definition raise {A : Type} (e : Exn) : M A :=
  fun w => mkOutcome (Raise e) w [].

(** The events of [o], after [evs]. *)
Definition after {A : Type} (evs : list Event) (o : Outcome A) : Outcome A :=
  match o with
  | mkOutcome r w es => mkOutcome r w (evs ++ es)
  end.

Definition bind {A B : Type} (m : M A) (k : A -> M B) : M B :=
  fun w =>
    match m w with
    | mkOutcome (Ok a) w1 evs => after evs (k a w1)
    | mkOutcome (Raise e) w1 evs => mkOutcome (Raise e) w1 evs
    end.

Notation "x <- m ;; k" := (bind m (fun x => k))
  (at level 100, m at next level, right associativity).
Notation "m ;;; k" := (bind m (fun _ => k))
  (at level 100, right associativity).

Definition emit (e : Event) : M unit :=
  fun w => mkOutcome (Ok tt) w [e].

Definition gets {A : Type} (f : World -> A) : M A :=
  fun w => mkOutcome (Ok (f w)) w [].

Definition modify (f : World -> World) : M unit :=
  fun w => mkOutcome (Ok tt) (f w) [].

Definition lift {A : Type} (r : Result A) : M A :=
  fun w => mkOutcome r w [].

(** [try: body finally: handler]: the handler runs in both cases; its own
    exception wins, otherwise the outcome of the body stands. *)
Definition try_finally {A : Type} (body : M A) (handler : M unit) : M A :=
  fun w =>
    match body w with
    | mkOutcome r w1 evs =>
        match handler w1 with
        | mkOutcome (Ok _) w2 evs' => mkOutcome r w2 (evs ++ evs')
        | mkOutcome (Raise e) w2 evs' => mkOutcome (Raise e) w2 (evs ++ evs')
        end
    end.

(** Reading [self.driver]. *)
Definition get_self_driver : M Driver :=
  d <- gets self_driver ;;
  match d with
  | Some d => ret d
  | None => raise (AttributeError "driver")
  end.

(** ** Calls to the collaborators *)

(** [warnings.warn(msg)]: the warning is issued and the call returns. *)
Definition warnings_warn (msg : string) : M unit :=
  emit (EWarn msg).

Definition call_create_webdriver : M Driver :=
  fun w =>
    let (r, x) := create_webdriver (ext w) in
    match r with
    | Ok d => mkOutcome (Ok d) (set_ext x w) [ECreated d]
    | Raise e => mkOutcome (Raise e) (set_ext x w) []
    end.

Definition call_terminate_webdriver (d : Driver) : M unit :=
  fun w =>
    let (r, x) := terminate_webdriver d (ext w) in
    mkOutcome r (set_ext x w) [ETerminate d].

(** The models a document shows, in the order of its roots. *)
Definition root_models (h : Heap) (doc : DocRef) : list Model :=
  map (model_of h) (roots_of h doc).

Definition call_get_screenshot_as_png (doc : DocRef) (d : Driver) : M Image :=
  fun w =>
    let (r, x) := get_screenshot_as_png (heap w) doc d (ext w) in
    mkOutcome r (set_ext x w) [EScreenshot doc d (root_models (heap w) doc)].

(** [sys.stdout.buffer.write(contents)] *)
Definition stdout_buffer_write (contents : bytes) : M unit :=
  fun w => mkOutcome (Ok tt) (set_stdout (stdout w ++ contents) w)
                     [EStdout contents].

(** [with io.open(filename, mode) as f: f.write(contents)]: the file object
    is closed, and its content is in the file system, when the block is
    left. *)
Definition open_and_write (filename mode : string) (contents : bytes)
  : M unit :=
  fun w =>
    match open_error filename (ext w) with
    | Some e => mkOutcome (Raise e) w []
    | None =>
        match io_open (fs w) filename mode with
        | Raise e => mkOutcome (Raise e) w []
        | Ok (fs1, f) =>
            if writable mode then
              let f' := stream_write contents f in
              mkOutcome (Ok tt) (set_fs (<[filename := data f']> fs1) w)
                        [EOpen filename mode; EWrite filename contents;
                         EClose filename]
            else
              mkOutcome (Raise (UnsupportedOperation "write"))
                        (set_fs fs1 w)
                        [EOpen filename mode; EClose filename]
        end
    end.

(** ** The methods inherited from [FileOutputSubcommand] *)

Class FileOutputSubcommand : Type := {
  (** the hook run after each file; [PNG] does not override it *)
  after_write_file : Args -> string -> DocRef -> M unit;
  (** [FileOutputSubcommand.invoke], given the [write_file] of the object
      it runs on *)
  super_invoke : (Args -> string -> DocRef -> M unit) -> Args -> M unit
}.

Context {B : FileOutputSubcommand}.

Definition call_after_write_file (args : Args) (filename : string)
  (doc : DocRef) : M unit :=
  emit (EAfterWrite args filename doc) ;;;
  after_write_file args filename doc.

(** ** class PNG *)

Definition size_warning : string :=
  "Export called with height or width kwargs on a non-single Plot layout. The size values will be ignored.".

(** Lines 110-117: the size arguments. The test
    [len(layout) != 1 or not isinstance(layout[0], Plot)] reads [layout[0]]
    only when there is exactly one root. *)
Definition apply_size_args (args : Args) (doc : DocRef) : M unit :=
  if is_not_None (width args) || is_not_None (height args) then
    layout <- gets (fun w => roots_of (heap w) doc) ;;
    match layout with
    | [plot] =>
        m <- gets (fun w => model_of (heap w) plot) ;;
        match m with
        | Plot plot_width plot_height =>
            let plot_height' := py_or (height args) plot_height in
            modify (fun w => set_heap
                      (store plot (Plot plot_width plot_height') (heap w)) w) ;;;
            let plot_width' := py_or (width args) plot_width in
            modify (fun w => set_heap
                      (store plot (Plot plot_width' plot_height') (heap w)) w)
        | Other _ _ _ => warnings_warn size_warning
        end
    | _ => warnings_warn size_warning
    end
  else ret tt.

(** Lines 119-123: the screenshot, saved as PNG into a fresh [BytesIO] that
    is then read from its start. *)
Definition export_png (doc : DocRef) : M bytes :=
  driver <- get_self_driver ;;
  image <- call_get_screenshot_as_png doc driver ;;
  let buf := BytesIO in
  buf <- lift (image_save image "png" buf) ;;
  let buf := stream_seek 0 buf in
  ret (fst (stream_read buf)).

Definition file_contents (args : Args) (doc : DocRef) : M bytes :=
  apply_size_args args doc ;;;
  export_png doc.

Definition write_file (args : Args) (filename : string) (doc : DocRef)
  : M unit :=
  contents <- file_contents args doc ;;
  (if String.eqb filename "-" then stdout_buffer_write contents
   else open_and_write filename "w+b" contents) ;;;
  call_after_write_file args filename doc.

(** Line 92, the [finally] block: [terminate_webdriver(self.driver)]. *)
Definition release_driver : M unit :=
  driver <- get_self_driver ;;
  call_terminate_webdriver driver.

Definition invoke (args : Args) : M unit :=
  driver <- call_create_webdriver ;;
  modify (set_self_driver driver) ;;;
  try_finally (super_invoke write_file args) release_driver.

(** ** Conditions on the arguments and on the document *)

Definition size_given (args : Args) : Prop :=
  width args <> None \/ height args <> None.

(** Exactly one root, and it is a [Plot]. *)
Definition single_plot_layout (h : Heap) (doc : DocRef) : bool :=
  match roots_of h doc with
  | [r] => isinstance_Plot (model_of h r)
  | _ => false
  end.

Definition not_single_plot_layout (h : Heap) (doc : DocRef) : Prop :=
  length (roots_of h doc) <> 1%nat \/
  exists r, roots_of h doc = [r] /\ isinstance_Plot (model_of h r) = false.

(** The test of lines 110 and 112 together. *)
Definition warns (args : Args) (h : Heap) (doc : DocRef) : bool :=
  (is_not_None (width args) || is_not_None (height args))
  && negb (single_plot_layout h doc).

Definition warnings_of (evs : list Event) : list Event :=
  filter (fun e => is_warning e = true) evs.

Definition outputs_of (evs : list Event) : list Event :=
  filter (fun e => is_output e = true) evs.

End Subcommand.

Arguments mkOutcome {S A} result final events.
Arguments result {S A} o.
Arguments final {S A} o.
Arguments events {S A} o.

(** ** A sample installation

    Concrete collaborators, on which the methods can be run: sessions are
    numbered, a screenshot is the list of the models shown (there is none of
    an empty document), and the codec writes a signature and the sizes. *)

Module Sample.

Definition byte_of (z : Z) : Byte.byte :=
  default Byte.x00 (Byte.of_N (Z.to_N (z mod 256))).

Definition encode_model (m : Model) : bytes :=
  match m with
  | Plot pw ph => [byte_of pw; byte_of ph]
  | Other _ _ _ => [Byte.x00]
  end.

Definition encode (image : list Model) : bytes :=
  [Byte.x89; Byte.x50; Byte.x4e; Byte.x47] ++ flat_map encode_model image.

#[export] Instance services : Services := {|
  X := nat;
  Image := list Model;
  create_webdriver := fun n => (Ok (Datatypes.S n), Datatypes.S n);
  terminate_webdriver := fun _ n => (Ok tt, n);
  get_screenshot_as_png := fun h doc _ n =>
    match map (model_of h) (roots_of h doc) with
    | [] => (Raise (External "get_screenshot_as_png"), n)
    | ms => (Ok ms, n)
    end;
  image_save := fun image _ buf => Ok (stream_write (encode image) buf);
  open_error := fun filename _ =>
    if String.eqb filename "" then Some (FileNotFoundError "") else None
|}.

(** The inherited loop: one document per file, numbered from [doc]. *)
Fixpoint each_file (wf : Args -> string -> DocRef -> M unit) (args : Args)
    (names : list string) (doc : DocRef) : M unit :=
  match names with
  | [] => ret tt
  | name :: rest =>
      bind (wf args name doc) (fun _ => each_file wf args rest (Datatypes.S doc))
  end.

#[export] Instance base : FileOutputSubcommand := {|
  after_write_file := fun _ _ _ => ret tt;
  super_invoke := fun wf args => each_file wf args (files args) 0%nat
|}.

(** Document 0 is a single plot of 600 by 400; document 1 has two roots;
    document 2 is empty; the only root of document 3 is a row. *)
Definition sample_heap : Heap := {|
  roots_of := fun doc =>
    match doc with
    | 0%nat => [0%nat]
    | 1%nat => [1%nat; 2%nat]
    | 3%nat => [1%nat]
    | _ => []
    end;
  model_of := fun r =>
    match r with
    | 0%nat => Plot 600 400
    | 2%nat => Plot 100 100
    | _ => Other "Row" 300 200
    end
|}.

Definition sample_world : World := {|
  self_driver := Some 7%nat;
  heap := sample_heap;
  fs := {[ "out.png" := [Byte.x01; Byte.x02; Byte.x03] ]};
  stdout := [];
  ext := 7%nat
|}.

(** Three files: the third document is empty, and its export raises. *)
Definition three_files : Args :=
  {| files := ["-"; "out.png"; "empty.png"]; height := None;
     width := Some 800 |}.

Definition no_size (names : list string) : Args :=
  {| files := names; height := None; width := None |}.

Definition width_only (z : Z) (names : list string) : Args :=
  {| files := names; height := None; width := Some z |}.

Definition height_only (z : Z) (names : list string) : Args :=
  {| files := names; height := Some z; width := None |}.

End Sample.

(** ** An installation without a browser

    As the sample, but no webdriver session can be created. *)

Module Offline.

Definition services : Services := {|
  X := nat;
  Image := list Model;
  create_webdriver := fun n => (Raise (External "create_webdriver"), n);
  terminate_webdriver := fun _ n => (Ok tt, n);
  get_screenshot_as_png := @get_screenshot_as_png Sample.services;
  image_save := @image_save Sample.services;
  open_error := @open_error Sample.services
|}.

Fixpoint each_file (wf : Args -> string -> DocRef -> @M services unit)
    (args : Args) (names : list string) (doc : DocRef) : @M services unit :=
  match names with
  | [] => @ret services unit tt
  | name :: rest =>
      @bind services unit unit (wf args name doc)
        (fun _ => each_file wf args rest (Datatypes.S doc))
  end.

Definition base : @FileOutputSubcommand services := {|
  after_write_file := fun _ _ _ => @ret services unit tt;
  super_invoke := fun wf args => each_file wf args (files args) 0%nat
|}.

Definition world : @World services :=
  @mkWorld services None Sample.sample_heap
    {[ "out.png" := [Byte.x01; Byte.x02; Byte.x03] ]} [] 0%nat.

End Offline.

(** ** Calls to the screenshot routine *)

Definition is_screenshot (e : Event) : bool :=
  match e with
  | EScreenshot _ _ _ => true
  | _ => false
  end.

Definition screenshots_of (evs : list Event) : list Event :=
  filter (fun e => is_screenshot e = true) evs.

(** * Properties *)

Section Properties.

Context {S : Services} {B : FileOutputSubcommand}.

(** ** Streams *)

Lemma stream_read_from_start (s : ByteStream) :
  fst (stream_read (stream_seek 0 s)) = data s.
Proof. reflexivity. Qed.

Lemma stream_write_fresh (b : bytes) :
  data (stream_write b {| data := []; pos := 0 |}) = b.
Proof.
  unfold stream_write; simpl.
  rewrite drop_nil. apply app_nil_r.
Qed.

Lemma parse_mode_wb : parse_mode "w+b" = ModeWrite.
Proof. reflexivity. Qed.

(** Opening with "w+b" never fails in [io_open] and starts from nothing. *)
Lemma io_open_wb (f : gmap string bytes) (filename : string) :
  io_open f filename "w+b"
  = Ok (<[filename := []]> f, {| data := []; pos := 0 |}).
Proof. reflexivity. Qed.

(** ** The monad *)

Lemma result_after {A : Type} (evs : list Event) (o : Outcome A) :
  result (after evs o) = result o.
Proof. by destruct o. Qed.

Lemma final_after {A : Type} (evs : list Event) (o : Outcome A) :
  final (after evs o) = final o.
Proof. by destruct o. Qed.

Lemma events_after {A : Type} (evs : list Event) (o : Outcome A) :
  events (after evs o) = evs ++ events o.
Proof. by destruct o. Qed.

Lemma after_nil {A : Type} (o : Outcome A) : after [] o = o.
Proof. by destruct o. Qed.

Lemma after_after {A : Type} (e1 e2 : list Event) (o : Outcome A) :
  after e1 (after e2 o) = after (e1 ++ e2) o.
Proof. destruct o; simpl. by rewrite app_assoc. Qed.

Lemma bind_ok {A C : Type} (m : M A) (k : A -> M C) (w : World) (a : A) :
  result (m w) = Ok a ->
  bind m k w = after (events (m w)) (k a (final (m w))).
Proof. unfold bind. destruct (m w) as [r w1 evs]; simpl. by intros ->. Qed.

Lemma bind_raise {A C : Type} (m : M A) (k : A -> M C) (w : World) (e : Exn) :
  result (m w) = Raise e ->
  bind m k w = mkOutcome (Raise e) (final (m w)) (events (m w)).
Proof. unfold bind. destruct (m w) as [r w1 evs]; simpl. by intros ->. Qed.

(** ** The size arguments *)

(** The cases of line 112: no root, one root (a plot or not), several. *)
Ltac case_layout h doc :=
  destruct (roots_of h doc) as [| ? [| ? ?]]; simpl; try done;
  repeat match goal with
         | |- context [model_of h ?r] => destruct (model_of h r); simpl
         end;
  try done.

Lemma size_given_dec (args : Args) :
  is_not_None (width args) || is_not_None (height args) = true
  <-> size_given args.
Proof.
  unfold size_given.
  destruct (width args), (height args); simpl; split; intros H;
    try done; try (left; done); try (right; done).
  destruct H as [H | H]; done.
Qed.

Lemma single_plot_layout_false (h : Heap) (doc : DocRef) :
  single_plot_layout h doc = false <-> not_single_plot_layout h doc.
Proof.
  unfold single_plot_layout, not_single_plot_layout.
  destruct (roots_of h doc) as [| r [| r' l]]; simpl.
  - split; [intros _; left; done | done].
  - split.
    + intros H. right. exists r. done.
    + intros [H | (r0 & Hr & H)]; [done |]. by inversion Hr; subst.
  - split; [intros _; left; done | done].
Qed.

Lemma apply_size_args_ok (args : Args) (doc : DocRef) (w : World) :
  result (apply_size_args args doc w) = Ok tt.
Proof.
  unfold apply_size_args.
  destruct (is_not_None (width args) || is_not_None (height args)); [| done].
  unfold bind, gets; simpl. case_layout (heap w) doc.
Qed.

(** Nothing but the store of models is touched. *)
Lemma apply_size_args_frame (args : Args) (doc : DocRef) (w : World) :
  final (apply_size_args args doc w)
  = set_heap (heap (final (apply_size_args args doc w))) w.
Proof.
  unfold apply_size_args.
  destruct (is_not_None (width args) || is_not_None (height args));
    [| by destruct w].
  unfold bind, gets; simpl.
  case_layout (heap w) doc; by destruct w.
Qed.

(** The warning is issued when sizes are given for a layout that is not a
    single plot, and the store is then left alone. *)
Lemma apply_size_args_warns (args : Args) (doc : DocRef) (w : World) :
  is_not_None (width args) || is_not_None (height args) = true ->
  single_plot_layout (heap w) doc = false ->
  apply_size_args args doc w = mkOutcome (Ok tt) w [EWarn size_warning].
Proof.
  intros Hg Hs. unfold apply_size_args. rewrite Hg.
  unfold single_plot_layout in Hs.
  unfold bind, gets; simpl. revert Hs. case_layout (heap w) doc.
Qed.

Lemma apply_size_args_absent (args : Args) (doc : DocRef) (w : World) :
  is_not_None (width args) || is_not_None (height args) = false ->
  apply_size_args args doc w = mkOutcome (Ok tt) w [].
Proof. intros Hg. unfold apply_size_args. by rewrite Hg. Qed.

(** On a single plot the two assignments are made, silently. *)
Lemma apply_size_args_plot (args : Args) (doc : DocRef) (w : World)
    (r : ObjRef) (pw ph : Z) :
  is_not_None (width args) || is_not_None (height args) = true ->
  roots_of (heap w) doc = [r] ->
  model_of (heap w) r = Plot pw ph ->
  apply_size_args args doc w
  = mkOutcome (Ok tt)
      (set_heap
         (store r (Plot (py_or (width args) pw) (py_or (height args) ph))
            (store r (Plot pw (py_or (height args) ph)) (heap w))) w) [].
Proof.
  intros Hg Hr Hm. unfold apply_size_args. rewrite Hg.
  unfold bind, gets; simpl. rewrite Hr; simpl. rewrite Hm; simpl.
  reflexivity.
Qed.

Lemma model_of_store_eq (r : ObjRef) (m : Model) (h : Heap) :
  model_of (store r m h) r = m.
Proof. simpl. by rewrite Nat.eqb_refl. Qed.

Lemma model_of_store_ne (r r' : ObjRef) (m : Model) (h : Heap) :
  r' <> r -> model_of (store r m h) r' = model_of h r'.
Proof. intros H. simpl. apply Nat.eqb_neq in H. by rewrite H. Qed.

(** ** The export step *)

(** The outcomes of [export_png], by what the collaborators answer. *)
Lemma export_png_no_driver (doc : DocRef) (w : World) :
  self_driver w = None ->
  export_png doc w = mkOutcome (Raise (AttributeError "driver")) w [].
Proof.
  intros H. unfold export_png, get_self_driver, bind, gets; simpl.
  by rewrite H.
Qed.

Lemma export_png_run (doc : DocRef) (w : World) (d : Driver) :
  self_driver w = Some d ->
  export_png doc w
  = mkOutcome
      (match fst (get_screenshot_as_png (heap w) doc d (ext w)) with
       | Ok image =>
           match image_save image "png" BytesIO with
           | Ok buf => Ok (data buf)
           | Raise e => Raise e
           end
       | Raise e => Raise e
       end)
      (set_ext (snd (get_screenshot_as_png (heap w) doc d (ext w))) w)
      [EScreenshot doc d (root_models (heap w) doc)].
Proof.
  intros H.
  unfold export_png, get_self_driver, call_get_screenshot_as_png, bind, gets,
    lift, ret, after; simpl.
  rewrite H; simpl.
  destruct (get_screenshot_as_png (heap w) doc d (ext w)) as [[img | e] x];
    simpl; [| done].
  destruct (image_save img "png" BytesIO); simpl; done.
Qed.

(** The export step leaves the models, the files and the standard output
    alone; it neither warns nor writes. *)
Lemma export_png_frame (doc : DocRef) (w : World) :
  final (export_png doc w) = set_ext (ext (final (export_png doc w))) w
  /\ warnings_of (events (export_png doc w)) = []
  /\ outputs_of (events (export_png doc w)) = [].
Proof.
  destruct (self_driver w) as [d |] eqn:Hd.
  - rewrite (export_png_run doc w d Hd); simpl. done.
  - rewrite (export_png_no_driver doc w Hd); simpl.
    split; [by destruct w | done].
Qed.

Lemma file_contents_unfold (args : Args) (doc : DocRef) (w : World) :
  file_contents args doc w
  = after (events (apply_size_args args doc w))
      (export_png doc (final (apply_size_args args doc w))).
Proof.
  unfold file_contents.
  apply (bind_ok (apply_size_args args doc) (fun _ => export_png doc) w tt).
  apply apply_size_args_ok.
Qed.

(** [file_contents] touches neither the files nor the standard output, and
    makes no call on an output destination. *)
Lemma file_contents_no_output (args : Args) (doc : DocRef) (w : World) :
  fs (final (file_contents args doc w)) = fs w
  /\ stdout (final (file_contents args doc w)) = stdout w
  /\ self_driver (final (file_contents args doc w)) = self_driver w
  /\ outputs_of (events (file_contents args doc w)) = [].
Proof.
  rewrite file_contents_unfold, final_after, events_after.
  destruct (export_png_frame doc (final (apply_size_args args doc w)))
    as (Hf & _ & Ho).
  repeat split;
    try (rewrite Hf; simpl; rewrite apply_size_args_frame; done).
  unfold outputs_of in *. rewrite filter_app, Ho, app_nil_r.
  unfold apply_size_args.
  destruct (is_not_None (width args) || is_not_None (height args)); [| done].
  unfold bind, gets; simpl. case_layout (heap w) doc.
Qed.

(** The export step does not assign to the store of models. *)
Lemma file_contents_heap (args : Args) (doc : DocRef) (w : World) :
  heap (final (file_contents args doc w))
  = heap (final (apply_size_args args doc w)).
Proof.
  rewrite file_contents_unfold, final_after.
  destruct (export_png_frame doc (final (apply_size_args args doc w)))
    as (Hf & _ & _).
  by rewrite Hf.
Qed.

(** ** Properties of [file_contents] *)

(** C1. [file_contents] returns the bytes of the buffer into which the
    screenshot, taken by [get_screenshot_as_png] for that document and the
    stored webdriver session, was saved as "png": the whole content of the
    buffer, read from position 0. *)
Theorem file_contents_png_buffer (args : Args) (doc : DocRef) (w : World)
    (d : Driver) (image : Image) (x : X) (buf : ByteStream) :
  self_driver w = Some d ->
  get_screenshot_as_png (heap (final (apply_size_args args doc w))) doc d
    (ext w) = (Ok image, x) ->
  image_save image "png" BytesIO = Ok buf ->
  result (file_contents args doc w) = Ok (data buf)
  /\ data buf = fst (stream_read (stream_seek 0 buf))
  /\ In (EScreenshot doc d
           (root_models (heap (final (apply_size_args args doc w))) doc))
        (events (file_contents args doc w)).
Proof.
  intros Hd Hshot Hsave.
  rewrite file_contents_unfold.
  set (w1 := final (apply_size_args args doc w)) in *.
  assert (Hw1 : self_driver w1 = Some d /\ ext w1 = ext w).
  { unfold w1. rewrite apply_size_args_frame. done. }
  destruct Hw1 as [Hd1 Hx1].
  rewrite (export_png_run doc w1 d Hd1), result_after, events_after; simpl.
  rewrite Hx1, Hshot; simpl. rewrite Hsave.
  repeat split; try done.
  apply in_or_app. right. left. done.
Qed.

Lemma warns_true (args : Args) (h : Heap) (doc : DocRef) :
  warns args h doc = true
  <-> size_given args /\ not_single_plot_layout h doc.
Proof.
  unfold warns. rewrite andb_true_iff, negb_true_iff.
  by rewrite size_given_dec, single_plot_layout_false.
Qed.

Lemma apply_size_args_events (args : Args) (doc : DocRef) (w : World) :
  events (apply_size_args args doc w)
  = if warns args (heap w) doc then [EWarn size_warning] else [].
Proof.
  unfold warns.
  destruct (is_not_None (width args) || is_not_None (height args)) eqn:Hg.
  - destruct (single_plot_layout (heap w) doc) eqn:Hs; simpl.
    + unfold apply_size_args, single_plot_layout in *. rewrite Hg.
      unfold bind, gets; simpl. revert Hs. case_layout (heap w) doc.
    + by rewrite (apply_size_args_warns args doc w Hg Hs).
  - by rewrite (apply_size_args_absent args doc w Hg).
Qed.

(** The warnings of a call: the size warning, once, or none. *)
Lemma file_contents_warnings_of (args : Args) (doc : DocRef) (w : World) :
  warnings_of (events (file_contents args doc w))
  = if warns args (heap w) doc then [EWarn size_warning] else [].
Proof.
  rewrite file_contents_unfold, events_after.
  destruct (export_png_frame doc (final (apply_size_args args doc w)))
    as (_ & Hw & _).
  unfold warnings_of in *. rewrite filter_app, Hw, app_nil_r.
  rewrite apply_size_args_events.
  by destruct (warns args (heap w) doc).
Qed.

(** C3. A warning is issued exactly when a size is given and the roots are
    not a single plot; the sizes are then ignored: the store of models is as
    before, and the export goes on as it does without size arguments: after
    the warning the screenshot of the unchanged document is requested with
    the stored session, and when it and [image.save] succeed the PNG bytes
    of the buffer are returned. *)
Theorem file_contents_warning (args : Args) (doc : DocRef) (w : World) :
  ((exists msg, In (EWarn msg) (events (file_contents args doc w)))
   <-> size_given args /\ not_single_plot_layout (heap w) doc)
  /\ (size_given args /\ not_single_plot_layout (heap w) doc ->
      warnings_of (events (file_contents args doc w)) = [EWarn size_warning]
      /\ heap (final (file_contents args doc w)) = heap w
      /\ file_contents args doc w
         = after [EWarn size_warning] (export_png doc w)
      /\ (forall d,
            self_driver w = Some d ->
            events (file_contents args doc w)
            = [EWarn size_warning;
               EScreenshot doc d (root_models (heap w) doc)])
      /\ (forall d image x buf,
            self_driver w = Some d ->
            get_screenshot_as_png (heap w) doc d (ext w) = (Ok image, x) ->
            image_save image "png" BytesIO = Ok buf ->
            file_contents args doc w
            = mkOutcome (Ok (data buf)) (set_ext x w)
                [EWarn size_warning;
                 EScreenshot doc d (root_models (heap w) doc)])).
Proof.
  pose proof (file_contents_warnings_of args doc w) as Hws.
  split; [split |].
  - intros [msg Hin]. apply warns_true.
    destruct (warns args (heap w) doc); [done |].
    assert (Hin' : EWarn msg ∈ warnings_of (events (file_contents args doc w))).
    { apply list_elem_of_filter. split; [done | by apply list_elem_of_In]. }
    rewrite Hws in Hin'. by apply not_elem_of_nil in Hin'.
  - intros H. apply warns_true in H. rewrite H in Hws.
    exists size_warning. apply list_elem_of_In.
    assert (Hin : EWarn size_warning
                  ∈ warnings_of (events (file_contents args doc w))).
    { rewrite Hws. apply list_elem_of_here. }
    by apply list_elem_of_filter in Hin as [_ Hin].
  - intros H. pose proof H as [Hg Hn]. apply warns_true in H.
    rewrite H in Hws. split; [done |].
    apply size_given_dec in Hg. apply single_plot_layout_false in Hn.
    rewrite file_contents_unfold, (apply_size_args_warns args doc w Hg Hn).
    cbn [events final]. rewrite final_after.
    destruct (export_png_frame doc w) as (Hf & _).
    split; [by rewrite Hf |]. split; [done |]. split.
    + intros d Hd. by rewrite (export_png_run doc w d Hd).
    + intros d image x buf Hd Hshot Hsave.
      rewrite (export_png_run doc w d Hd), Hshot. cbn [fst snd].
      by rewrite Hsave.
Qed.

(** On a single plot, with or without size arguments: the plot ends with
    the sizes that the two [or] expressions select, nothing else changes, and
    nothing is said. *)
Lemma apply_size_args_single_plot (args : Args) (doc : DocRef) (w : World)
    (r : ObjRef) (pw ph : Z) :
  roots_of (heap w) doc = [r] ->
  model_of (heap w) r = Plot pw ph ->
  events (apply_size_args args doc w) = []
  /\ model_of (heap (final (apply_size_args args doc w))) r
     = Plot (py_or (width args) pw) (py_or (height args) ph)
  /\ roots_of (heap (final (apply_size_args args doc w))) = roots_of (heap w)
  /\ (forall r', r' <> r ->
        model_of (heap (final (apply_size_args args doc w))) r'
        = model_of (heap w) r').
Proof.
  intros Hr Hm.
  destruct (is_not_None (width args) || is_not_None (height args)) eqn:Hg.
  - rewrite (apply_size_args_plot args doc w r pw ph Hg Hr Hm).
    cbn [events final heap set_heap].
    split; [done |]. split; [apply model_of_store_eq |]. split; [done |].
    intros r' Hne. by rewrite !model_of_store_ne.
  - rewrite (apply_size_args_absent args doc w Hg).
    cbn [events final heap].
    apply orb_false_elim in Hg. destruct Hg as [Hw Hh].
    destruct (width args), (height args); try done.
Qed.

(** C4, as the code has it. For a document whose only root is a [Plot], a
    width that is given and is not 0 becomes the plot's [plot_width], and a
    height that is given and is not 0 becomes its [plot_height]; the
    screenshot is requested with these sizes in place. *)
Theorem file_contents_size_override (args : Args) (doc : DocRef) (w : World)
    (r : ObjRef) (pw ph : Z) :
  roots_of (heap w) doc = [r] ->
  model_of (heap w) r = Plot pw ph ->
  exists pw' ph',
    model_of (heap (final (file_contents args doc w))) r = Plot pw' ph'
    /\ (forall z, width args = Some z -> z <> 0 -> pw' = z)
    /\ (forall z, height args = Some z -> z <> 0 -> ph' = z)
    /\ (forall d, self_driver w = Some d ->
          events (file_contents args doc w)
          = [EScreenshot doc d [Plot pw' ph']]).
Proof.
  intros Hr Hm.
  destruct (apply_size_args_single_plot args doc w r pw ph Hr Hm)
    as (He & Hm' & Hr' & _).
  exists (py_or (width args) pw), (py_or (height args) ph).
  split; [by rewrite file_contents_heap |].
  split; [| split].
  - intros z Hz Hnz. rewrite Hz. simpl.
    apply Z.eqb_neq in Hnz. by rewrite Hnz.
  - intros z Hz Hnz. rewrite Hz. simpl.
    apply Z.eqb_neq in Hnz. by rewrite Hnz.
  - intros d Hd. rewrite file_contents_unfold, He, after_nil.
    set (w1 := final (apply_size_args args doc w)) in *.
    assert (Hd1 : self_driver w1 = Some d).
    { unfold w1. by rewrite apply_size_args_frame. }
    rewrite (export_png_run doc w1 d Hd1). simpl.
    unfold root_models. by rewrite Hr', Hr; simpl; rewrite Hm'.
Qed.

(** C7. Without [--width] and without [--height] the document is not
    modified: the size branch is not entered, the roots and the models are
    as before, and [file_contents] is the export step alone. *)
Theorem file_contents_no_size_args (args : Args) (doc : DocRef) (w : World) :
  width args = None ->
  height args = None ->
  heap (final (file_contents args doc w)) = heap w
  /\ apply_size_args args doc w = ret tt w
  /\ file_contents args doc w = export_png doc w.
Proof.
  intros Hw Hh.
  assert (Hg : is_not_None (width args) || is_not_None (height args) = false)
    by (by rewrite Hw, Hh).
  assert (Hfc : file_contents args doc w = export_png doc w).
  { rewrite file_contents_unfold, (apply_size_args_absent args doc w Hg).
    cbn [events final]. apply after_nil. }
  split; [| split; [by apply apply_size_args_absent | done]].
  rewrite Hfc. destruct (export_png_frame doc w) as (Hf & _). by rewrite Hf.
Qed.

(** C8. For a document whose only root is a [Plot], a height of 0 leaves
    [plot_height] as it was and a width of 0 leaves [plot_width] as it was,
    as [0 or v] is [v]; no warning is issued. *)
Theorem file_contents_zero_size (args : Args) (doc : DocRef) (w : World)
    (r : ObjRef) (pw ph : Z) :
  roots_of (heap w) doc = [r] ->
  model_of (heap w) r = Plot pw ph ->
  exists pw' ph',
    model_of (heap (final (file_contents args doc w))) r = Plot pw' ph'
    /\ (height args = Some 0 -> ph' = py_or (Some 0) ph /\ ph' = ph)
    /\ (width args = Some 0 -> pw' = py_or (Some 0) pw /\ pw' = pw)
    /\ warnings_of (events (file_contents args doc w)) = [].
Proof.
  intros Hr Hm.
  destruct (apply_size_args_single_plot args doc w r pw ph Hr Hm)
    as (He & Hm' & _).
  exists (py_or (width args) pw), (py_or (height args) ph).
  split; [by rewrite file_contents_heap |].
  split; [| split].
  - intros Hz. by rewrite Hz.
  - intros Hz. by rewrite Hz.
  - rewrite file_contents_unfold, He, after_nil.
    by destruct (export_png_frame doc (final (apply_size_args args doc w)))
      as (_ & Hn & _).
Qed.

(** C9. For a document whose only root is a [Plot], a dimension that is not
    given is left as it was, whether or not the other one is given. *)
Theorem file_contents_other_dimension (args : Args) (doc : DocRef) (w : World)
    (r : ObjRef) (pw ph : Z) :
  roots_of (heap w) doc = [r] ->
  model_of (heap w) r = Plot pw ph ->
  exists pw' ph',
    model_of (heap (final (file_contents args doc w))) r = Plot pw' ph'
    /\ (width args = None -> pw' = pw)
    /\ (height args = None -> ph' = ph).
Proof.
  intros Hr Hm.
  destruct (apply_size_args_single_plot args doc w r pw ph Hr Hm)
    as (_ & Hm' & _).
  exists (py_or (width args) pw), (py_or (height args) ph).
  split; [by rewrite file_contents_heap |].
  split; intros Hz; by rewrite Hz.
Qed.

(** ** Properties of [write_file] *)

Lemma call_after_write_file_unfold (args : Args) (filename : string)
    (doc : DocRef) (w : World) :
  call_after_write_file args filename doc w
  = after [EAfterWrite args filename doc]
      (after_write_file args filename doc w).
Proof. reflexivity. Qed.

(** The block [with io.open(filename, "w+b") as f: f.write(contents)], when
    the system lets the name be opened: the file holds [contents], whatever
    it held. *)
Lemma open_and_write_wb (filename : string) (contents : bytes) (w : World) :
  open_error filename (ext w) = None ->
  open_and_write filename "w+b" contents w
  = mkOutcome (Ok tt) (set_fs (<[filename := contents]> (fs w)) w)
      [EOpen filename "w+b"; EWrite filename contents; EClose filename].
Proof.
  intros H. unfold open_and_write. rewrite H, io_open_wb.
  cbn [writable parse_mode mode_has Ascii.eqb Bool.eqb].
  rewrite stream_write_fresh. by rewrite insert_insert_eq.
Qed.

Lemma open_and_write_refused (filename mode : string) (contents : bytes)
    (w : World) (e : Exn) :
  open_error filename (ext w) = Some e ->
  open_and_write filename mode contents w = mkOutcome (Raise e) w [].
Proof. intros H. unfold open_and_write. by rewrite H. Qed.

Lemma write_file_stdout (args : Args) (doc : DocRef) (w : World)
    (contents : bytes) :
  result (file_contents args doc w) = Ok contents ->
  write_file args "-" doc w
  = after (events (file_contents args doc w)
           ++ [EStdout contents; EAfterWrite args "-" doc])
      (after_write_file args "-" doc
         (set_stdout (stdout (final (file_contents args doc w)) ++ contents)
            (final (file_contents args doc w)))).
Proof.
  intros H. unfold write_file. rewrite (bind_ok _ _ _ _ H). simpl.
  unfold bind at 1, stdout_buffer_write.
  rewrite call_after_write_file_unfold.
  rewrite !after_after, <- !app_assoc. reflexivity.
Qed.

Lemma write_file_named (args : Args) (filename : string) (doc : DocRef)
    (w : World) (contents : bytes) :
  result (file_contents args doc w) = Ok contents ->
  filename <> "-" ->
  open_error filename (ext (final (file_contents args doc w))) = None ->
  write_file args filename doc w
  = after (events (file_contents args doc w)
           ++ [EOpen filename "w+b"; EWrite filename contents;
               EClose filename; EAfterWrite args filename doc])
      (after_write_file args filename doc
         (set_fs (<[filename := contents]>
                    (fs (final (file_contents args doc w))))
            (final (file_contents args doc w)))).
Proof.
  intros H Hne Hopen. unfold write_file. rewrite (bind_ok _ _ _ _ H).
  apply String.eqb_neq in Hne. rewrite Hne.
  unfold bind at 1. rewrite (open_and_write_wb _ _ _ Hopen).
  rewrite call_after_write_file_unfold.
  rewrite !after_after, <- !app_assoc. reflexivity.
Qed.

(** C5. [write_file] writes the bytes returned by [file_contents] to the
    binary stream of the standard output when the name is '-', and otherwise
    to the file of that name; then it calls [after_write_file] with the same
    [args], [filename] and [doc]. *)
Theorem write_file_destination (args : Args) (filename : string)
    (doc : DocRef) (w : World) (contents : bytes) :
  result (file_contents args doc w) = Ok contents ->
  (filename = "-" ->
     write_file args filename doc w
     = after (events (file_contents args doc w)
              ++ [EStdout contents; EAfterWrite args filename doc])
         (after_write_file args filename doc
            (set_stdout
               (stdout (final (file_contents args doc w)) ++ contents)
               (final (file_contents args doc w)))))
  /\ (filename <> "-" ->
      open_error filename (ext (final (file_contents args doc w))) = None ->
      write_file args filename doc w
      = after (events (file_contents args doc w)
               ++ [EOpen filename "w+b"; EWrite filename contents;
                   EClose filename; EAfterWrite args filename doc])
          (after_write_file args filename doc
             (set_fs (<[filename := contents]>
                        (fs (final (file_contents args doc w))))
                (final (file_contents args doc w))))).
Proof.
  intros H. split.
  - intros ->. by apply write_file_stdout.
  - intros Hne Hopen. by apply write_file_named.
Qed.

(** C6. The bytes are computed before any output destination is opened:
    the calls of [file_contents] come first and none of them is on an output
    destination. If the export step raises, [write_file] raises the same
    exception, nothing is written to a file or to the standard output, and
    no file is opened. *)
Theorem write_file_export_first (args : Args) (filename : string)
    (doc : DocRef) (w : World) :
  (exists rest,
     events (write_file args filename doc w)
     = events (file_contents args doc w) ++ rest
     /\ outputs_of (events (file_contents args doc w)) = [])
  /\ (forall e, result (file_contents args doc w) = Raise e ->
        result (write_file args filename doc w) = Raise e
        /\ fs (final (write_file args filename doc w)) = fs w
        /\ stdout (final (write_file args filename doc w)) = stdout w
        /\ outputs_of (events (write_file args filename doc w)) = []).
Proof.
  destruct (file_contents_no_output args doc w) as (Hfs & Hout & _ & Hev).
  split.
  - destruct (result (file_contents args doc w)) as [c | e] eqn:Hres.
    + unfold write_file. rewrite (bind_ok _ _ _ _ Hres), events_after.
      eauto.
    + unfold write_file. rewrite (bind_raise _ _ _ _ Hres). simpl.
      exists []. by rewrite app_nil_r.
  - intros e Hres. unfold write_file. rewrite (bind_raise _ _ _ _ Hres).
    simpl. done.
Qed.

(** C10. With a name other than '-', the file is opened with mode "w+b",
    which truncates: when [after_write_file] is called the file holds
    exactly the bytes returned by [file_contents], whatever it held before,
    and the other files are as they were; this is the content after the
    call when [after_write_file] does not write to files. *)
Theorem write_file_truncates (args : Args) (filename : string)
    (doc : DocRef) (w : World) (contents : bytes) :
  result (file_contents args doc w) = Ok contents ->
  filename <> "-" ->
  open_error filename (ext (final (file_contents args doc w))) = None ->
  exists w2,
    write_file args filename doc w
    = after (events (file_contents args doc w)
             ++ [EOpen filename "w+b"; EWrite filename contents;
                 EClose filename; EAfterWrite args filename doc])
        (after_write_file args filename doc w2)
    /\ parse_mode "w+b" = ModeWrite
    /\ fs w2 !! filename = Some contents
    /\ (forall other, other <> filename -> fs w2 !! other = fs w !! other)
    /\ (fs (final (after_write_file args filename doc w2)) = fs w2 ->
        fs (final (write_file args filename doc w)) !! filename
        = Some contents).
Proof.
  intros H Hne Hopen.
  destruct (file_contents_no_output args doc w) as (Hfs & _).
  eexists. split; [by apply write_file_named |].
  split; [done |].
  split; [apply lookup_insert_eq |].
  split.
  - intros other Ho. cbn [fs set_fs]. rewrite Hfs.
    by apply lookup_insert_ne.
  - intros Hhook. rewrite (write_file_named _ _ _ _ _ H Hne Hopen).
    rewrite final_after, Hhook. apply lookup_insert_eq.
Qed.

(** ** Properties of [invoke] *)

Lemma try_finally_run {A : Type} (body : M A) (handler : M unit) (w : World)
    (r : Result unit) (w2 : World) (evs : list Event) :
  handler (final (body w)) = mkOutcome r w2 evs ->
  try_finally body handler w
  = mkOutcome
      (match r with
       | Ok _ => result (body w)
       | Raise e => Raise e
       end)
      w2 (events (body w) ++ evs).
Proof.
  unfold try_finally. destruct (body w) as [r1 w1 evs1]; simpl.
  intros ->. by destruct r.
Qed.

Lemma release_driver_run (w : World) (d : Driver) :
  self_driver w = Some d ->
  release_driver w
  = mkOutcome (fst (terminate_webdriver d (ext w)))
      (set_ext (snd (terminate_webdriver d (ext w))) w) [ETerminate d].
Proof.
  intros H.
  unfold release_driver, get_self_driver, bind, gets, ret,
    call_terminate_webdriver, after.
  rewrite H. by destruct (terminate_webdriver d (ext w)).
Qed.

(** When [self.driver] is gone at the end, the [finally] block raises
    before it reaches [terminate_webdriver]. *)
Lemma release_driver_unset (w : World) :
  self_driver w = None ->
  release_driver w = mkOutcome (Raise (AttributeError "driver")) w [].
Proof.
  intros H. unfold release_driver, get_self_driver, bind, gets, raise.
  by rewrite H.
Qed.

Lemma invoke_run (args : Args) (w : World) (d : Driver) (x : X) :
  create_webdriver (ext w) = (Ok d, x) ->
  invoke args w
  = after [ECreated d]
      (try_finally (super_invoke write_file args) release_driver
         (set_self_driver d (set_ext x w))).
Proof.
  intros H. unfold invoke, bind, call_create_webdriver, modify.
  rewrite H. cbn [after app].
  by destruct (try_finally _ _ _).
Qed.

(** When no session can be created, nothing else happens. *)
Lemma invoke_no_session (args : Args) (w : World) (e : Exn) (x : X) :
  create_webdriver (ext w) = (Raise e, x) ->
  invoke args w = mkOutcome (Raise e) (set_ext x w) [].
Proof.
  intros H. unfold invoke, bind, call_create_webdriver.
  by rewrite H.
Qed.

(** The methods of [PNG] do not assign [self.driver] after [invoke] has set
    it: [write_file] leaves it as it is when the hook does. *)
Lemma write_file_keeps_driver (args : Args) (filename : string)
    (doc : DocRef) (w : World) :
  (forall w', self_driver (final (after_write_file args filename doc w'))
              = self_driver w') ->
  self_driver (final (write_file args filename doc w)) = self_driver w.
Proof.
  intros Hhook.
  destruct (file_contents_no_output args doc w) as (_ & _ & Hd & _).
  unfold write_file.
  destruct (result (file_contents args doc w)) as [c | e] eqn:Hres.
  - rewrite (bind_ok _ _ _ _ Hres), final_after.
    set (w1 := final (file_contents args doc w)) in *.
    assert (Hout : forall (m : M unit),
               self_driver (final (m w1)) = self_driver w1 ->
               self_driver
                 (final (bind m
                           (fun _ => call_after_write_file args filename doc)
                           w1)) = self_driver w1).
    { intros m Hm. unfold bind. destruct (m w1) as [[[] | e] w2 evs]; simpl in *.
      - by rewrite final_after, call_after_write_file_unfold, final_after,
          Hhook.
      - done. }
    rewrite <- Hd. apply Hout.
    destruct (String.eqb filename "-"); [done |].
    unfold open_and_write.
    destruct (open_error filename (ext w1)); [done |].
    by rewrite io_open_wb.
  - by rewrite (bind_raise _ _ _ _ Hres).
Qed.

(** C2. [invoke] creates a webdriver session before the inherited [invoke]
    (which does the processing of the files) starts, and calls
    [terminate_webdriver] on that session after it, whether the inherited
    [invoke] returned or raised. The inherited method is taken to leave
    [self.driver] as [invoke] set it. *)
Theorem invoke_lifecycle (args : Args) (w : World) (d : Driver) (x : X) :
  create_webdriver (ext w) = (Ok d, x) ->
  self_driver
    (final (super_invoke write_file args (set_self_driver d (set_ext x w))))
  = Some d ->
  exists (o : Outcome unit) (t : Result unit * X),
    o = super_invoke write_file args (set_self_driver d (set_ext x w))
    /\ t = terminate_webdriver d (ext (final o))
    /\ events (invoke args w) = ECreated d :: events o ++ [ETerminate d]
    /\ final (invoke args w) = set_ext (snd t) (final o)
    /\ result (invoke args w)
       = match fst t with
         | Ok _ => result o
         | Raise e => Raise e
         end.
Proof.
  intros Hc Hd. eexists. eexists. split; [reflexivity |].
  split; [reflexivity |].
  rewrite (invoke_run args w d x Hc).
  rewrite events_after, final_after, result_after.
  rewrite (try_finally_run _ _ _ _ _ _ (release_driver_run _ d Hd)).
  done.
Qed.

End Properties.

(** * Further properties of the three methods *)

Section Further.

Context {S : Services} {B : FileOutputSubcommand}.

(** ** The store after the size arguments *)

Lemma py_or_idempotent (a : option Z) (b : Z) :
  py_or a (py_or a b) = py_or a b.
Proof.
  destruct a as [z |]; simpl; [| done].
  by destruct (Z.eqb z 0) eqn:Hz; rewrite ?Hz.
Qed.

(** The size step leaves the store alone unless the document is a single
    plot. *)
Lemma apply_size_args_other_layout (args : Args) (doc : DocRef) (w : World) :
  single_plot_layout (heap w) doc = false ->
  heap (final (apply_size_args args doc w)) = heap w.
Proof.
  intros Hs.
  destruct (is_not_None (width args) || is_not_None (height args)) eqn:Hg.
  - by rewrite (apply_size_args_warns args doc w Hg Hs).
  - by rewrite (apply_size_args_absent args doc w Hg).
Qed.

Lemma single_plot_layout_true (h : Heap) (doc : DocRef) :
  single_plot_layout h doc = true ->
  exists r pw ph, roots_of h doc = [r] /\ model_of h r = Plot pw ph.
Proof.
  unfold single_plot_layout.
  destruct (roots_of h doc) as [| r [| r' l]]; try done.
  destruct (model_of h r) as [pw ph |] eqn:Hm; [| done].
  intros _. by exists r, pw, ph.
Qed.

(** X1. When [create_webdriver] raises, [invoke] raises the same exception
    at once: the inherited [invoke] is not run, [terminate_webdriver] is not
    called, and [self.driver], the models, the files and the standard output
    are as before. *)
Theorem invoke_session_not_created (args : Args) (w : World) (e : Exn)
    (x : X) :
  create_webdriver (ext w) = (Raise e, x) ->
  result (invoke args w) = Raise e
  /\ events (invoke args w) = []
  /\ final (invoke args w) = set_ext x w
  /\ self_driver (final (invoke args w)) = self_driver w.
Proof.
  intros H. unfold invoke, bind, call_create_webdriver.
  rewrite H. done.
Qed.

(** X2. The [finally] block of [invoke] reads [self.driver] again: the
    session that is terminated is the one the attribute holds when the
    inherited [invoke] ends; if the attribute is gone, [AttributeError] is
    raised in place of the outcome of the inherited [invoke] and
    [terminate_webdriver] is not called. *)
Theorem invoke_terminates_stored_session (args : Args) (w : World)
    (d : Driver) (x : X) :
  create_webdriver (ext w) = (Ok d, x) ->
  let o := super_invoke write_file args (set_self_driver d (set_ext x w)) in
  match self_driver (final o) with
  | Some d' =>
      events (invoke args w) = ECreated d :: events o ++ [ETerminate d']
      /\ self_driver (final (invoke args w)) = Some d'
  | None =>
      events (invoke args w) = ECreated d :: events o
      /\ result (invoke args w) = Raise (AttributeError "driver")
      /\ final (invoke args w) = final o
  end.
Proof.
  intros Hc o. rewrite (invoke_run args w d x Hc).
  rewrite events_after, final_after, result_after. fold o.
  destruct (self_driver (final o)) as [d' |] eqn:Hd.
  - rewrite (try_finally_run _ _ _ _ _ _ (release_driver_run _ d' Hd)).
    done.
  - rewrite (try_finally_run _ _ _ _ _ _ (release_driver_unset _ Hd)).
    cbn [events result final]. by rewrite app_nil_r.
Qed.

(** X3. Without a stored session ([self.driver] was never set),
    [file_contents] raises [AttributeError] before any screenshot is
    requested; the size arguments have been handled by then: the warning, if
    any, is issued and the sizes of a single plot are assigned. *)
Theorem file_contents_without_session (args : Args) (doc : DocRef)
    (w : World) :
  self_driver w = None ->
  file_contents args doc w
  = mkOutcome (Raise (AttributeError "driver"))
      (final (apply_size_args args doc w))
      (if warns args (heap w) doc then [EWarn size_warning] else [])
  /\ ext (final (file_contents args doc w)) = ext w
  /\ screenshots_of (events (file_contents args doc w)) = [].
Proof.
  intros Hd.
  assert (Hd1 : self_driver (final (apply_size_args args doc w)) = None).
  { by rewrite apply_size_args_frame. }
  assert (Hrun : file_contents args doc w
                 = mkOutcome (Raise (AttributeError "driver"))
                     (final (apply_size_args args doc w))
                     (if warns args (heap w) doc
                      then [EWarn size_warning] else [])).
  { rewrite file_contents_unfold, (export_png_no_driver _ _ Hd1).
    cbn [after]. by rewrite app_nil_r, apply_size_args_events. }
  rewrite Hrun. cbn [final events].
  split; [done |]. split; [by rewrite apply_size_args_frame |].
  by destruct (warns args (heap w) doc).
Qed.

(** X4. An exception of the screenshot routine, or of [image.save], comes
    out of [file_contents] unchanged: no bytes are returned, and the one
    screenshot request has been made. *)
Theorem file_contents_propagates (args : Args) (doc : DocRef) (w : World)
    (d : Driver) (e : Exn) :
  self_driver w = Some d ->
  (fst (get_screenshot_as_png (heap (final (apply_size_args args doc w)))
          doc d (ext w)) = Raise e
   \/ exists image,
        fst (get_screenshot_as_png (heap (final (apply_size_args args doc w)))
               doc d (ext w)) = Ok image
        /\ image_save image "png" BytesIO = Raise e) ->
  result (file_contents args doc w) = Raise e
  /\ ext (final (file_contents args doc w))
     = snd (get_screenshot_as_png (heap (final (apply_size_args args doc w)))
              doc d (ext w))
  /\ screenshots_of (events (file_contents args doc w))
     = [EScreenshot doc d
          (root_models (heap (final (apply_size_args args doc w))) doc)].
Proof.
  intros Hd Hfail.
  rewrite file_contents_unfold.
  set (w1 := final (apply_size_args args doc w)) in *.
  assert (Hw1 : self_driver w1 = Some d /\ ext w1 = ext w).
  { unfold w1. by rewrite apply_size_args_frame. }
  destruct Hw1 as [Hd1 Hx1].
  rewrite (export_png_run doc w1 d Hd1), result_after, final_after,
    events_after.
  cbn [result final events ext set_ext]. rewrite Hx1.
  split; [| split; [done |]].
  - destruct Hfail as [-> | (image & -> & ->)]; done.
  - unfold screenshots_of. rewrite filter_app.
    unfold w1 at 1. rewrite apply_size_args_events.
    by destruct (warns args (heap w) doc).
Qed.

(** The store after [file_contents], by cases: it is as before, or the
    document is a single plot that got the sizes selected by the two [or]
    expressions. *)
Lemma file_contents_heap_cases (args : Args) (doc : DocRef) (w : World) :
  heap (final (file_contents args doc w)) = heap w
  \/ exists r pw ph,
       roots_of (heap w) doc = [r]
       /\ model_of (heap w) r = Plot pw ph
       /\ roots_of (heap (final (file_contents args doc w)))
          = roots_of (heap w)
       /\ model_of (heap (final (file_contents args doc w))) r
          = Plot (py_or (width args) pw) (py_or (height args) ph)
       /\ (forall r', r' <> r ->
             model_of (heap (final (file_contents args doc w))) r'
             = model_of (heap w) r').
Proof.
  rewrite file_contents_heap.
  destruct (single_plot_layout (heap w) doc) eqn:Hs.
  - right. apply single_plot_layout_true in Hs as (r & pw & ph & Hr & Hm).
    exists r, pw, ph.
    destruct (apply_size_args_single_plot args doc w r pw ph Hr Hm)
      as (_ & Hm' & Hr' & Ho).
    done.
  - left. by apply apply_size_args_other_layout.
Qed.

(** X5. [file_contents] changes nothing in the store but the sizes of the
    plot of a single-plot document: the roots of every document, the class
    of every model, and every model that is not the only root of the
    exported document are as before. *)
Theorem file_contents_store_frame (args : Args) (doc : DocRef) (w : World) :
  (forall doc', roots_of (heap (final (file_contents args doc w))) doc'
                = roots_of (heap w) doc')
  /\ (forall r, isinstance_Plot
                  (model_of (heap (final (file_contents args doc w))) r)
                = isinstance_Plot (model_of (heap w) r))
  /\ (forall r, roots_of (heap w) doc <> [r] ->
                model_of (heap (final (file_contents args doc w))) r
                = model_of (heap w) r)
  /\ (forall doc', single_plot_layout
                     (heap (final (file_contents args doc w))) doc'
                   = single_plot_layout (heap w) doc').
Proof.
  assert (Hclass : forall r,
             isinstance_Plot
               (model_of (heap (final (file_contents args doc w))) r)
             = isinstance_Plot (model_of (heap w) r)).
  { intros r'.
    destruct (file_contents_heap_cases args doc w)
      as [-> | (r & pw & ph & Hr & Hm & Hr' & Hm' & Ho)]; [done |].
    destruct (decide (r' = r)) as [-> | Hne].
    - by rewrite Hm', Hm.
    - by rewrite Ho. }
  assert (Hroots : forall doc',
             roots_of (heap (final (file_contents args doc w))) doc'
             = roots_of (heap w) doc').
  { intros doc'.
    destruct (file_contents_heap_cases args doc w)
      as [-> | (r & pw & ph & Hr & Hm & Hr' & Hm' & Ho)]; [done |].
    by rewrite Hr'. }
  split; [done |]. split; [done |]. split.
  - intros r' Hne.
    destruct (file_contents_heap_cases args doc w)
      as [-> | (r & pw & ph & Hr & Hm & Hr' & Hm' & Ho)]; [done |].
    apply Ho. intros ->. by apply Hne.
  - intros doc'. unfold single_plot_layout. rewrite Hroots.
    destruct (roots_of (heap w) doc') as [| r [| r' l]]; try done.
Qed.

(** X6. The size step is idempotent: a second [file_contents] with the same
    arguments on the same document leaves every model and every list of
    roots as the first call left them, and warns exactly when the first
    did. *)
Theorem file_contents_sizes_idempotent (args : Args) (doc : DocRef)
    (w : World) :
  let w1 := final (file_contents args doc w) in
  (forall r, model_of (heap (final (file_contents args doc w1))) r
             = model_of (heap w1) r)
  /\ (forall doc', roots_of (heap (final (file_contents args doc w1))) doc'
                   = roots_of (heap w1) doc')
  /\ warnings_of (events (file_contents args doc w1))
     = warnings_of (events (file_contents args doc w)).
Proof.
  intros w1.
  assert (Hsame : single_plot_layout (heap w1) doc
                  = single_plot_layout (heap w) doc).
  { unfold w1, single_plot_layout.
    destruct (file_contents_heap_cases args doc w)
      as [-> | (r & pw & ph & Hr & Hm & Hr' & Hm' & Ho)]; [done |].
    by rewrite Hr', Hr, Hm', Hm. }
  split; [| split].
  - intros r'.
    destruct (file_contents_heap_cases args doc w1)
      as [-> | (r & pw & ph & Hr & Hm & Hr' & Hm' & Ho)]; [done |].
    destruct (decide (r' = r)) as [-> | Hne]; [| by apply Ho].
    rewrite Hm', Hm. f_equal.
    + destruct (file_contents_heap_cases args doc w)
        as [Heq | (r0 & pw0 & ph0 & Hr0 & Hm0 & Hr0' & Hm0' & _)].
      * fold w1 in Heq. rewrite Heq in Hr, Hm.
        assert (Hs : single_plot_layout (heap w) doc = true).
        { unfold single_plot_layout. by rewrite Hr, Hm. }
        assert (Hnone : heap (final (apply_size_args args doc w)) = heap w).
        { by rewrite <- file_contents_heap. }
        destruct (apply_size_args_single_plot args doc w r pw ph Hr Hm)
          as (_ & Hm1 & _).
        rewrite Hnone, Hm in Hm1. by inversion Hm1 as [[Hw Hh]]; rewrite <- Hw.
      * fold w1 in Hr0', Hm0'. rewrite Hr0', Hr0 in Hr.
        inversion Hr; subst r0. rewrite Hm0' in Hm.
        inversion Hm; subst. apply py_or_idempotent.
    + destruct (file_contents_heap_cases args doc w)
        as [Heq | (r0 & pw0 & ph0 & Hr0 & Hm0 & Hr0' & Hm0' & _)].
      * fold w1 in Heq. rewrite Heq in Hr, Hm.
        assert (Hnone : heap (final (apply_size_args args doc w)) = heap w).
        { by rewrite <- file_contents_heap. }
        destruct (apply_size_args_single_plot args doc w r pw ph Hr Hm)
          as (_ & Hm1 & _).
        rewrite Hnone, Hm in Hm1. by inversion Hm1 as [[Hw Hh]]; rewrite <- Hh.
      * fold w1 in Hr0', Hm0'. rewrite Hr0', Hr0 in Hr.
        inversion Hr; subst r0. rewrite Hm0' in Hm.
        inversion Hm; subst. apply py_or_idempotent.
  - intros doc'.
    destruct (file_contents_heap_cases args doc w1)
      as [-> | (r & pw & ph & Hr & Hm & Hr' & Hm' & Ho)]; [done |].
    by rewrite Hr'.
  - rewrite !file_contents_warnings_of. unfold warns. by rewrite Hsame.
Qed.

(** X7. [file_contents] asks for at most one screenshot: none without a
    stored session, and otherwise one, of the exported document, with the
    stored session, after the size arguments have been handled. *)
Theorem file_contents_screenshots (args : Args) (doc : DocRef) (w : World) :
  screenshots_of (events (file_contents args doc w))
  = match self_driver w with
    | Some d =>
        [EScreenshot doc d
           (root_models (heap (final (apply_size_args args doc w))) doc)]
    | None => []
    end.
Proof.
  rewrite file_contents_unfold, events_after.
  unfold screenshots_of. rewrite filter_app, apply_size_args_events.
  assert (Hd1 : self_driver (final (apply_size_args args doc w))
                = self_driver w) by (by rewrite apply_size_args_frame).
  destruct (self_driver w) as [d |] eqn:Hd.
  - rewrite (export_png_run doc _ d Hd1). cbn [events].
    by destruct (warns args (heap w) doc).
  - rewrite (export_png_no_driver doc _ Hd1). cbn [events].
    by destruct (warns args (heap w) doc).
Qed.

(** X8. When the system refuses to open the named file, [write_file] raises
    that exception after the export: nothing is written, no file is created,
    and [after_write_file] is not called. *)
Theorem write_file_open_refused (args : Args) (filename : string)
    (doc : DocRef) (w : World) (contents : bytes) (e : Exn) :
  result (file_contents args doc w) = Ok contents ->
  filename <> "-" ->
  open_error filename (ext (final (file_contents args doc w))) = Some e ->
  write_file args filename doc w
  = mkOutcome (Raise e) (final (file_contents args doc w))
      (events (file_contents args doc w))
  /\ fs (final (write_file args filename doc w)) = fs w
  /\ stdout (final (write_file args filename doc w)) = stdout w.
Proof.
  intros H Hne Hopen.
  destruct (file_contents_no_output args doc w) as (Hfs & Hout & _).
  assert (Hrun : write_file args filename doc w
                 = mkOutcome (Raise e) (final (file_contents args doc w))
                     (events (file_contents args doc w))).
  { unfold write_file. rewrite (bind_ok _ _ _ _ H).
    apply String.eqb_neq in Hne. rewrite Hne.
    unfold bind at 1. rewrite (open_and_write_refused _ _ _ _ _ Hopen).
    cbn [after]. by rewrite app_nil_r. }
  by rewrite Hrun.
Qed.

(** X9. The methods of [PNG] that run for each file do not assign
    [self.driver]: [file_contents] leaves it as it is, and so does
    [write_file] when [after_write_file] does. *)
Theorem write_file_keeps_session (args : Args) (filename : string)
    (doc : DocRef) (w : World) :
  (forall w', self_driver (final (after_write_file args filename doc w'))
              = self_driver w') ->
  self_driver (final (file_contents args doc w)) = self_driver w
  /\ self_driver (final (write_file args filename doc w)) = self_driver w.
Proof.
  intros Hhook. split.
  - by destruct (file_contents_no_output args doc w) as (_ & _ & Hd & _).
  - by apply write_file_keeps_driver.
Qed.

(** X10. Exports to '-' add up: after two calls of [write_file] with the
    name '-', the standard output holds what it held, then the bytes of the
    first export, then those of the second, when [after_write_file] does
    not write to it. *)
Theorem write_file_stdout_appends (args1 args2 : Args) (doc1 doc2 : DocRef)
    (w : World) (c1 c2 : bytes) :
  (forall a d w', stdout (final (after_write_file a "-" d w')) = stdout w') ->
  result (file_contents args1 doc1 w) = Ok c1 ->
  result (file_contents args2 doc2 (final (write_file args1 "-" doc1 w)))
  = Ok c2 ->
  stdout (final (write_file args2 "-" doc2
                   (final (write_file args1 "-" doc1 w))))
  = stdout w ++ c1 ++ c2.
Proof.
  intros Hhook H1 H2.
  assert (Hone : forall a d w0 c,
             result (file_contents a d w0) = Ok c ->
             stdout (final (write_file a "-" d w0)) = stdout w0 ++ c).
  { intros a d w0 c Hc.
    rewrite (write_file_stdout a d w0 c Hc), final_after, Hhook.
    cbn [stdout set_stdout].
    by destruct (file_contents_no_output a d w0) as (_ & -> & _). }
  rewrite (Hone _ _ _ _ H2), (Hone _ _ _ _ H1).
  by rewrite app_assoc.
Qed.

End Further.

(** * The sample installation, run *)

Import Sample.

Example sample_file_contents :
  result (file_contents (width_only 800 []) 0%nat sample_world)
  = Ok [Byte.x89; Byte.x50; Byte.x4e; Byte.x47; Byte.x20; Byte.x90].
Proof. reflexivity. Qed.

Example sample_file_contents_empty_document :
  result (file_contents (no_size []) 2%nat sample_world)
  = Raise (External "get_screenshot_as_png").
Proof. reflexivity. Qed.

Example sample_invoke_returns :
  let o := invoke (width_only 800 ["-"; "out.png"]) sample_world in
  result o = Ok tt
  /\ head (events o) = Some (ECreated 8%nat)
  /\ last (events o) = Some (ETerminate 8%nat)
  /\ fs (final o) !! "out.png"
     = Some [Byte.x89; Byte.x50; Byte.x4e; Byte.x47; Byte.x00; Byte.x64;
             Byte.x64].
Proof. vm_compute. done. Qed.

Example sample_invoke_raises :
  let o := invoke three_files sample_world in
  result o = Raise (External "get_screenshot_as_png")
  /\ head (events o) = Some (ECreated 8%nat)
  /\ last (events o) = Some (ETerminate 8%nat)
  /\ fs (final o) !! "empty.png" = None.
Proof. vm_compute. done. Qed.

(** Mode "ab" would have kept what the file held. *)
Example sample_append_keeps :
  fs (final (open_and_write "out.png" "ab" [Byte.x04] sample_world))
    !! "out.png"
  = Some [Byte.x01; Byte.x02; Byte.x03; Byte.x04].
Proof. reflexivity. Qed.

(** A file opened with "rb" is not written to. *)
Example sample_read_only_refuses :
  let o := open_and_write "out.png" "rb" [Byte.x04] sample_world in
  result o = Raise (UnsupportedOperation "write")
  /\ fs (final o) !! "out.png" = Some [Byte.x01; Byte.x02; Byte.x03].
Proof. vm_compute. done. Qed.

(** ** The properties at the sample *)

Lemma file_contents_png_buffer_witness :
  self_driver sample_world = Some 7%nat
  /\ result (file_contents (width_only 800 []) 0%nat sample_world)
     = Ok (encode [Plot 800 400])
  /\ In (EScreenshot 0%nat 7%nat [Plot 800 400])
        (events (file_contents (width_only 800 []) 0%nat sample_world)).
Proof.
  split; [reflexivity |].
  pose proof (file_contents_png_buffer (width_only 800 []) 0%nat sample_world
                7%nat [Plot 800 400] 7%nat
                (stream_write (encode [Plot 800 400]) BytesIO)
                eq_refl eq_refl eq_refl) as (H1 & _ & H3).
  split; [exact H1 | exact H3].
Defined.

Lemma file_contents_warning_witness :
  size_given (width_only 800 [])
  /\ not_single_plot_layout (heap sample_world) 1%nat
  /\ warnings_of
       (events (file_contents (width_only 800 []) 1%nat sample_world))
     = [EWarn size_warning]
  /\ heap (final (file_contents (width_only 800 []) 1%nat sample_world))
     = heap sample_world
  /\ events (file_contents (width_only 800 []) 1%nat sample_world)
     = [EWarn size_warning;
        EScreenshot 1%nat 7%nat [Other "Row" 300 200; Plot 100 100]]
  /\ file_contents (width_only 800 []) 1%nat sample_world
     = mkOutcome (Ok (encode [Other "Row" 300 200; Plot 100 100]))
         (set_ext 7%nat sample_world)
         [EWarn size_warning;
          EScreenshot 1%nat 7%nat [Other "Row" 300 200; Plot 100 100]].
Proof.
  assert (Hg : size_given (width_only 800 [])) by (left; discriminate).
  assert (Hn : not_single_plot_layout (heap sample_world) 1%nat)
    by (left; discriminate).
  split; [exact Hg |]. split; [exact Hn |].
  destruct (proj2 (file_contents_warning (width_only 800 []) 1%nat
                     sample_world) (conj Hg Hn)) as (H1 & H2 & _ & H4 & H5).
  split; [exact H1 |]. split; [exact H2 |].
  split; [exact (H4 7%nat eq_refl) |].
  exact (H5 7%nat [Other "Row" 300 200; Plot 100 100] 7%nat
           (stream_write (encode [Other "Row" 300 200; Plot 100 100]) BytesIO)
           eq_refl eq_refl eq_refl).
Defined.

Lemma file_contents_size_override_witness :
  roots_of (heap sample_world) 0%nat = [0%nat]
  /\ model_of (heap sample_world) 0%nat = Plot 600 400
  /\ exists pw' ph',
       model_of
         (heap (final (file_contents
                         {| files := []; height := Some 300;
                            width := Some 800 |} 0%nat sample_world)))
         0%nat = Plot pw' ph'
       /\ pw' = 800 /\ ph' = 300.
Proof.
  split; [reflexivity |]. split; [reflexivity |].
  destruct (file_contents_size_override
              {| files := []; height := Some 300; width := Some 800 |}
              0%nat sample_world 0%nat 600 400 eq_refl eq_refl)
    as (pw' & ph' & Hm & Hw & Hh & _).
  exists pw', ph'. split; [exact Hm |].
  split; [apply Hw | apply Hh]; first [reflexivity | discriminate].
Defined.

(** C4 as stated fails: the width 0 is given, the only root is a [Plot],
    and its [plot_width] after the call is 600, not 0. *)
Lemma width_zero_is_not_applied :
  width (width_only 0 []) = Some 0
  /\ roots_of (heap sample_world) 0%nat = [0%nat]
  /\ model_of (heap sample_world) 0%nat = Plot 600 400
  /\ model_of
       (heap (final (file_contents (width_only 0 []) 0%nat sample_world)))
       0%nat = Plot 600 400
  /\ ~ (exists ph',
          model_of
            (heap (final (file_contents (width_only 0 []) 0%nat
                            sample_world))) 0%nat = Plot 0 ph').
Proof.
  repeat (split; [reflexivity |]).
  intros [ph' H]. vm_compute in H. discriminate H.
Qed.

Lemma write_file_destination_witness :
  result (file_contents (no_size []) 0%nat sample_world)
  = Ok (encode [Plot 600 400])
  /\ stdout (final (write_file (no_size []) "-" 0%nat sample_world))
     = encode [Plot 600 400]
  /\ fs (final (write_file (no_size []) "plot.png" 0%nat sample_world))
       !! "plot.png" = Some (encode [Plot 600 400])
  /\ last (events (write_file (no_size []) "plot.png" 0%nat sample_world))
     = Some (EAfterWrite (no_size []) "plot.png" 0%nat).
Proof.
  split; [reflexivity |].
  destruct (write_file_destination (no_size []) "-" 0%nat sample_world
              (encode [Plot 600 400]) eq_refl) as [H1 _].
  destruct (write_file_destination (no_size []) "plot.png" 0%nat sample_world
              (encode [Plot 600 400]) eq_refl) as [_ H2].
  rewrite (H1 eq_refl).
  rewrite (H2 ltac:(discriminate) eq_refl).
  repeat split; reflexivity.
Defined.

Lemma write_file_export_first_witness :
  result (file_contents (no_size []) 2%nat sample_world)
  = Raise (External "get_screenshot_as_png")
  /\ result (write_file (no_size []) "empty.png" 2%nat sample_world)
     = Raise (External "get_screenshot_as_png")
  /\ fs (final (write_file (no_size []) "empty.png" 2%nat sample_world))
     = fs sample_world
  /\ stdout (final (write_file (no_size []) "empty.png" 2%nat sample_world))
     = stdout sample_world
  /\ outputs_of
       (events (write_file (no_size []) "empty.png" 2%nat sample_world))
     = [].
Proof.
  split; [reflexivity |].
  exact (proj2 (write_file_export_first (no_size []) "empty.png" 2%nat
                  sample_world) _ eq_refl).
Defined.

Lemma file_contents_no_size_args_witness :
  width (no_size []) = None
  /\ height (no_size []) = None
  /\ heap (final (file_contents (no_size []) 0%nat sample_world))
     = heap sample_world
  /\ file_contents (no_size []) 0%nat sample_world
     = export_png 0%nat sample_world.
Proof.
  split; [reflexivity |]. split; [reflexivity |].
  destruct (file_contents_no_size_args (no_size []) 0%nat sample_world
              eq_refl eq_refl) as (H1 & _ & H3).
  split; [exact H1 | exact H3].
Defined.

Lemma file_contents_zero_size_witness :
  roots_of (heap sample_world) 0%nat = [0%nat]
  /\ model_of (heap sample_world) 0%nat = Plot 600 400
  /\ exists pw' ph',
       model_of
         (heap (final (file_contents
                         {| files := []; height := Some 0;
                            width := Some 800 |} 0%nat sample_world)))
         0%nat = Plot pw' ph'
       /\ ph' = 400
       /\ warnings_of
            (events (file_contents
                       {| files := []; height := Some 0; width := Some 800 |}
                       0%nat sample_world)) = [].
Proof.
  split; [reflexivity |]. split; [reflexivity |].
  destruct (file_contents_zero_size
              {| files := []; height := Some 0; width := Some 800 |}
              0%nat sample_world 0%nat 600 400 eq_refl eq_refl)
    as (pw' & ph' & Hm & Hh & _ & Hn).
  exists pw', ph'. split; [exact Hm |].
  split; [exact (proj2 (Hh eq_refl)) | exact Hn].
Defined.

Lemma file_contents_other_dimension_witness :
  roots_of (heap sample_world) 0%nat = [0%nat]
  /\ model_of (heap sample_world) 0%nat = Plot 600 400
  /\ exists pw' ph',
       model_of
         (heap (final (file_contents (width_only 800 []) 0%nat
                         sample_world))) 0%nat = Plot pw' ph'
       /\ ph' = 400.
Proof.
  split; [reflexivity |]. split; [reflexivity |].
  destruct (file_contents_other_dimension (width_only 800 []) 0%nat
              sample_world 0%nat 600 400 eq_refl eq_refl)
    as (pw' & ph' & Hm & _ & Hh).
  exists pw', ph'. split; [exact Hm | exact (Hh eq_refl)].
Defined.

Lemma write_file_truncates_witness :
  fs sample_world !! "out.png" = Some [Byte.x01; Byte.x02; Byte.x03]
  /\ result (file_contents (no_size []) 0%nat sample_world)
     = Ok (encode [Plot 600 400])
  /\ fs (final (write_file (no_size []) "out.png" 0%nat sample_world))
       !! "out.png" = Some (encode [Plot 600 400]).
Proof.
  split; [reflexivity |]. split; [reflexivity |].
  destruct (write_file_truncates (no_size []) "out.png" 0%nat sample_world
              (encode [Plot 600 400]) eq_refl ltac:(discriminate) eq_refl)
    as (w2 & Hrun & _ & _ & _ & Hfinal).
  apply Hfinal. reflexivity.
Defined.

Lemma invoke_lifecycle_witness :
  create_webdriver (ext sample_world) = (Ok 8%nat, 8%nat)
  /\ self_driver
       (final (super_invoke write_file three_files
                 (set_self_driver 8%nat (set_ext 8%nat sample_world))))
     = Some 8%nat
  /\ exists (o : Outcome unit) (t : Result unit * X),
       o = super_invoke write_file three_files
             (set_self_driver 8%nat (set_ext 8%nat sample_world))
       /\ t = terminate_webdriver 8%nat (ext (final o))
       /\ events (invoke three_files sample_world)
          = ECreated 8%nat :: events o ++ [ETerminate 8%nat]
       /\ final (invoke three_files sample_world)
          = set_ext (snd t) (final o)
       /\ result (invoke three_files sample_world)
          = match fst t with
            | Ok _ => result o
            | Raise e => Raise e
            end.
Proof.
  assert (Hd : self_driver
                 (final (super_invoke write_file three_files
                           (set_self_driver 8%nat
                              (set_ext 8%nat sample_world))))
               = Some 8%nat) by (vm_compute; reflexivity).
  split; [reflexivity |]. split; [exact Hd |].
  exact (invoke_lifecycle three_files sample_world 8%nat 8%nat eq_refl Hd).
Defined.

(** ** The further properties at the samples *)

Lemma invoke_session_not_created_witness :
  @create_webdriver Offline.services (@ext Offline.services Offline.world)
  = (Raise (External "create_webdriver"), 0%nat)
  /\ @result Offline.services unit
       (@invoke Offline.services Offline.base three_files Offline.world)
     = Raise (External "create_webdriver")
  /\ @events Offline.services unit
       (@invoke Offline.services Offline.base three_files Offline.world)
     = [].
Proof.
  split; [reflexivity |].
  destruct (@invoke_session_not_created Offline.services Offline.base
              three_files Offline.world (External "create_webdriver") 0%nat
              eq_refl) as (H1 & H2 & _).
  split; [exact H1 | exact H2].
Defined.

Lemma invoke_terminates_stored_session_witness :
  create_webdriver (ext sample_world) = (Ok 8%nat, 8%nat)
  /\ match
       self_driver
         (final (super_invoke write_file three_files
                   (set_self_driver 8%nat (set_ext 8%nat sample_world))))
     with
     | Some d' =>
         events (invoke three_files sample_world)
         = ECreated 8%nat
           :: events (super_invoke write_file three_files
                        (set_self_driver 8%nat (set_ext 8%nat sample_world)))
              ++ [ETerminate d']
         /\ self_driver (final (invoke three_files sample_world)) = Some d'
     | None =>
         events (invoke three_files sample_world)
         = ECreated 8%nat
           :: events (super_invoke write_file three_files
                        (set_self_driver 8%nat (set_ext 8%nat sample_world)))
         /\ result (invoke three_files sample_world)
            = Raise (AttributeError "driver")
         /\ final (invoke three_files sample_world)
            = final (super_invoke write_file three_files
                       (set_self_driver 8%nat (set_ext 8%nat sample_world)))
     end.
Proof.
  split; [reflexivity |].
  exact (invoke_terminates_stored_session three_files sample_world 8%nat
           8%nat eq_refl).
Defined.

Lemma file_contents_without_session_witness :
  @self_driver Offline.services Offline.world = None
  /\ @result Offline.services bytes
       (@file_contents Offline.services (width_only 800 []) 1%nat
          Offline.world)
     = Raise (AttributeError "driver")
  /\ @events Offline.services bytes
       (@file_contents Offline.services (width_only 800 []) 1%nat
          Offline.world)
     = [EWarn size_warning].
Proof.
  split; [reflexivity |].
  destruct (@file_contents_without_session Offline.services
              (width_only 800 []) 1%nat Offline.world eq_refl)
    as (Hrun & _ & _).
  rewrite Hrun. split; reflexivity.
Defined.

Lemma file_contents_propagates_witness :
  self_driver sample_world = Some 7%nat
  /\ fst (get_screenshot_as_png
            (heap (final (apply_size_args (no_size []) 2%nat sample_world)))
            2%nat 7%nat (ext sample_world))
     = Raise (External "get_screenshot_as_png")
  /\ result (file_contents (no_size []) 2%nat sample_world)
     = Raise (External "get_screenshot_as_png")
  /\ screenshots_of (events (file_contents (no_size []) 2%nat sample_world))
     = [EScreenshot 2%nat 7%nat []].
Proof.
  split; [reflexivity |]. split; [reflexivity |].
  destruct (file_contents_propagates (no_size []) 2%nat sample_world 7%nat
              (External "get_screenshot_as_png") eq_refl
              (or_introl eq_refl)) as (H1 & _ & H3).
  split; [exact H1 | exact H3].
Defined.

Lemma write_file_open_refused_witness :
  result (file_contents (no_size []) 0%nat sample_world)
  = Ok (encode [Plot 600 400])
  /\ open_error "" (ext (final (file_contents (no_size []) 0%nat
                                  sample_world)))
     = Some (FileNotFoundError "")
  /\ result (write_file (no_size []) "" 0%nat sample_world)
     = Raise (FileNotFoundError "")
  /\ fs (final (write_file (no_size []) "" 0%nat sample_world))
     = fs sample_world.
Proof.
  split; [reflexivity |]. split; [reflexivity |].
  destruct (write_file_open_refused (no_size []) "" 0%nat sample_world
              (encode [Plot 600 400]) (FileNotFoundError "") eq_refl
              ltac:(discriminate) eq_refl) as (Hrun & Hfs & _).
  split; [by rewrite Hrun | exact Hfs].
Defined.

Lemma write_file_keeps_session_witness :
  (forall w', self_driver
                (final (after_write_file (width_only 800 []) "out.png"
                          0%nat w'))
              = self_driver w')
  /\ self_driver
       (final (write_file (width_only 800 []) "out.png" 0%nat sample_world))
     = Some 7%nat.
Proof.
  assert (Hhook : forall w',
             self_driver
               (final (after_write_file (width_only 800 []) "out.png"
                         0%nat w'))
             = self_driver w') by (intros w'; reflexivity).
  split; [exact Hhook |].
  exact (proj2 (write_file_keeps_session (width_only 800 []) "out.png" 0%nat
                  sample_world Hhook)).
Defined.

Lemma write_file_stdout_appends_witness :
  (forall a d w', stdout (final (after_write_file a "-" d w')) = stdout w')
  /\ stdout
       (final (write_file (no_size []) "-" 1%nat
                 (final (write_file (no_size []) "-" 0%nat sample_world))))
     = encode [Plot 600 400] ++ encode [Other "Row" 300 200; Plot 100 100].
Proof.
  assert (Hhook : forall a d w',
             stdout (final (after_write_file a "-" d w')) = stdout w')
    by (intros a d w'; reflexivity).
  split; [exact Hhook |].
  exact (write_file_stdout_appends (no_size []) (no_size []) 0%nat 1%nat
           sample_world (encode [Plot 600 400])
           (encode [Other "Row" 300 200; Plot 100 100]) Hhook eq_refl
           ltac:(vm_compute; reflexivity)).
Defined.
